(** * Verification of [app/processor.py] (stock-backtest-strategies)

    The module has two functions: [validate_input_message], a gate in front
    of an external schema check, and [evaluate_strategy], which tallies six
    optional signal fields of a message and returns the message enriched
    with a decision and the vote count.

    Python objects are modelled by a store of mutable objects addressed by
    references, so that "returns the same object" and "builds a fresh
    mapping" are statements about references and not about values.  The
    functions run in a small state-and-exception monad over a world made of
    that store and of the logging sink.

    The values of a message are first the data a decoded message holds.
    Module [Wide] then runs the same source on messages that may also hold
    objects with an [__eq__] of their own, which the membership test of
    the tally calls; on plain data the two models agree
    ([wide_agrees_on_plain]). *)

From Stdlib Require Import ZArith Floats.
From stdpp Require Import base option list gmap strings fin_maps.

Local Open Scope string_scope.
Local Open Scope Z_scope.

(** ** Values and objects *)

Definition loc := nat.

(** Immediate values are carried as they are; lists and dicts live in the
    store and a value only holds a reference to them. *)
Inductive pyval :=
| VNone
| VBool (b : bool)
| VInt (n : Z)
| VFloat (x : float)
| VStr (s : string)
| VRef (l : loc).

Inductive pyobj :=
| ODict (d : gmap string pyval)
| OList (xs : list pyval).

Inductive exn :=
| ValueError (msg : string)
| AttributeError
| TypeError
| SystemError.

Inductive log_level := DEBUG | INFO | ERROR.

Record log_record := LogRecord {
  levelname : log_level;
  msg : string;
  args : list pyval
}.

Record world := World {
  store : gmap loc pyobj;
  records : list log_record
}.

(** ** The monad of Python statements *)

Inductive outcome (A : Type) :=
| Returns (a : A)
| Raises (e : exn).
Arguments Returns {A} a.
Arguments Raises {A} e.

Definition M (A : Type) : Type := world → outcome A * world.

Global Instance M_ret : MRet M := λ A a w, (Returns a, w).

Global Instance M_bind : MBind M := λ A B f c w,
  match c w with
  | (Returns a, w') => f a w'
  | (Raises e, w') => (Raises e, w')
  end.

Definition raise {A} (e : exn) : M A := λ w, (Raises e, w).

Definition read_store : M (gmap loc pyobj) := λ w, (Returns (store w), w).

(** Allocation of a new object: the reference is one the store does not
    hold yet. *)
Definition alloc (o : pyobj) : M pyval := λ w,
  let l := fresh (dom (store w)) in
  (Returns (VRef l), World (<[l := o]> (store w)) (records w)).

(** The logger of the module.  The sink keeps every call made to it, with
    the level, the format and the arguments of the call.  [Logger.debug],
    [Logger.info] and [Logger.error] never raise: the logging package
    catches what a handler raises while formatting. *)
Definition log (lvl : log_level) (fmt : string) (a : list pyval) : M unit := λ w,
  (Returns tt, World (store w) (records w ++ [LogRecord lvl fmt a])).

Definition logger_debug := log DEBUG.
Definition logger_info := log INFO.
Definition logger_error := log ERROR.

(** ** Operations on objects *)

(** [o.get(key, default)].  Only a dict has the attribute [get] among the
    objects of the model; a reference outside the store has no Python
    counterpart and is reported as [SystemError]. *)
Definition py_get (o : pyval) (key : string) (dflt : pyval) : M pyval :=
  match o with
  | VRef l =>
      σ ← read_store;
      match σ !! l with
      | Some (ODict d) => mret (default dflt (d !! key))
      | Some (OList _) => raise AttributeError
      | None => raise SystemError
      end
  | _ => raise AttributeError
  end.

(** [**o] inside a dict display: the operand has to be a mapping. *)
Definition py_mapping (o : pyval) : M (gmap string pyval) :=
  match o with
  | VRef l =>
      σ ← read_store;
      match σ !! l with
      | Some (ODict d) => mret d
      | Some (OList _) => raise TypeError
      | None => raise SystemError
      end
  | _ => raise TypeError
  end.

(** [acc.update(d)]: every item of [d] is stored into [acc]. *)
Definition dict_update (acc d : gmap string pyval) : gmap string pyval :=
  map_fold (λ k v a, <[k := v]> a) acc d.

Fixpoint dict_unpack (acc : gmap string pyval) (parts : list pyval)
  : M (gmap string pyval) :=
  match parts with
  | [] => mret acc
  | p :: ps => d ← py_mapping p; dict_unpack (dict_update acc d) ps
  end.

(** [{**p1, ..., **pn}]: a new dict, filled from the operands from left to
    right. *)
Definition py_dict_display (parts : list pyval) : M pyval :=
  d ← dict_unpack ∅ parts; alloc (ODict d).

(** [{k1: v1, ..., kn: vn}]: a new dict, the items stored from left to
    right. *)
Definition py_dict_literal (items : list (string * pyval)) : M pyval :=
  alloc (ODict (foldl (λ d kv, <[kv.1 := kv.2]> d) ∅ items)).

(** [v == s] for a [str] constant [s]: no value of another type compares
    equal to a string. *)
Definition py_eq_str (v : pyval) (s : string) : bool :=
  match v with
  | VStr t => String.eqb t s
  | _ => false
  end.

(** [v in (s1, ..., sn)] for a tuple of [str] constants: the elements are
    compared with [v] one after the other, and [v] is never hashed. *)
Definition py_in (v : pyval) (t : list string) : bool :=
  existsb (py_eq_str v) t.

(** The builtin [sum] on integers. *)
Definition py_sum (xs : list Z) : Z := foldl Z.add 0 xs.

(** ** [evaluate_strategy] *)

Definition affirmative : list string :=
  ["BUY"; "INCLUDE"; "OVEREXPOSED"; "REVERT_UP"].

Definition count_votes (votes : list pyval) : Z :=
  py_sum ((λ _, 1) <$> List.filter (λ v, py_in v affirmative) votes).

Definition decide_votes (vote_count : Z) : string :=
  if vote_count >=? 3 then "BUY" else "HOLD".

Definition evaluate_strategy (message : pyval) : M pyval :=
  symbol ← py_get message "symbol" (VStr "UNKNOWN");
  logger_info "🧮 Evaluating strategy for %s" [symbol];;
  v1 ← py_get message "alpha_signal" VNone;
  v2 ← py_get message "momentum_signal" VNone;
  v3 ← py_get message "sentiment_signal" VNone;
  v4 ← py_get message "composite_signal" VNone;
  v5 ← py_get message "beta_signal" VNone;
  v6 ← py_get message "factor_signal" VNone;
  let votes := [v1; v2; v3; v4; v5; v6] in
  let vote_count := count_votes votes in
  let decision := decide_votes vote_count in
  result ← py_dict_literal [("final_strategy_decision", VStr decision);
                            ("strategy_votes", VInt vote_count)];
  logger_debug "✅ Final strategy decision for %s: %s" [symbol; result];;
  py_dict_display [message; result].

(** ** [validate_input_message] *)

Section Validator.

(** [app.utils.validate_data.validate_message_schema] is an external
    collaborator: a boolean check that reads the message and changes
    nothing. *)
Variable validate_message_schema : gmap loc pyobj → pyval → bool.

Definition validate_input_message (message : pyval) : M pyval :=
  logger_debug "🔍 Validating message schema..." [];;
  σ ← read_store;
  if negb (validate_message_schema σ message)
  then
    logger_error "❌ Invalid message schema: %s" [message];;
    raise (ValueError "Invalid message format")
  else mret message.

End Validator.

(** ** What the specification speaks of *)

(** The six signal slots the evaluator reads. *)
Definition signal_fields : list string :=
  ["alpha_signal"; "momentum_signal"; "sentiment_signal";
   "composite_signal"; "beta_signal"; "factor_signal"].

(** The affirmative tokens, as a set. *)
Definition affirmative_tokens : gset string :=
  {[ "BUY"; "INCLUDE"; "OVEREXPOSED"; "REVERT_UP" ]}.

(** Field [k] of message [d] holds an affirmative token. *)
Definition holds_affirmative (d : gmap string pyval) (k : string) : Prop :=
  match d !! k with
  | Some (VStr s) => s ∈ affirmative_tokens
  | _ => False
  end.

Global Instance holds_affirmative_dec d k : Decision (holds_affirmative d k).
Proof. unfold holds_affirmative. destruct (d !! k) as [[]|]; apply _. Defined.

(** The number of signal slots of [d] that hold an affirmative token. *)
Definition affirmative_fields (d : gmap string pyval) : nat :=
  length (filter (holds_affirmative d) signal_fields).

(** The shallow merge of the specification: a key of [r] takes its value
    from [r], any other key keeps the value it has in [m]. *)
Definition shallow_merge (m r : gmap string pyval) : gmap string pyval :=
  union_with (λ vr _, Some vr) r m.

(** ** The run of [evaluate_strategy] on a mapping *)

Definition votes_of (d : gmap string pyval) : list pyval :=
  (λ k, default VNone (d !! k)) <$> signal_fields.

(** The dict bound to [result] in the source. *)
Definition decision_result (d : gmap string pyval) : gmap string pyval :=
  <["strategy_votes" := VInt (count_votes (votes_of d))]>
    (<["final_strategy_decision" :=
         VStr (decide_votes (count_votes (votes_of d)))]> ∅).

(** The dict the source returns. *)
Definition enriched (d : gmap string pyval) : gmap string pyval :=
  dict_update (dict_update ∅ d) (decision_result d).

(** The symbol handed to the logger. *)
Definition logged_symbol (d : gmap string pyval) : pyval :=
  default (VStr "UNKNOWN") (d !! "symbol").

(** The reference of [result], the reference of the returned dict, and the
    world the call leaves. *)
Definition result_loc (w : world) : loc := fresh (dom (store w)).

Definition output_loc (w : world) (d : gmap string pyval) : loc :=
  fresh (dom (<[result_loc w := ODict (decision_result d)]> (store w))).

Definition evaluate_world (w : world) (d : gmap string pyval) : world :=
  World
    (<[output_loc w d := ODict (enriched d)]>
       (<[result_loc w := ODict (decision_result d)]> (store w)))
    (records w ++
       [LogRecord INFO "🧮 Evaluating strategy for %s" [logged_symbol d];
        LogRecord DEBUG "✅ Final strategy decision for %s: %s"
          [logged_symbol d; VRef (result_loc w)]]).

(** [evaluates w message out w']: from world [w], the call
    [evaluate_strategy(message)] returns a reference to a dict whose
    content is [out], and leaves the world [w']. *)
Definition evaluates (w : world) (message : pyval)
    (out : gmap string pyval) (w' : world) : Prop :=
  ∃ l', evaluate_strategy message w = (Returns (VRef l'), w')
        ∧ store w' !! l' = Some (ODict out).

(** The content of the dict a call returns, when it returns one. *)
Definition run_evaluate (w : world) (message : pyval)
  : option (gmap string pyval) :=
  match evaluate_strategy message w with
  | (Returns (VRef l'), w') =>
      match store w' !! l' with
      | Some (ODict out) => Some out
      | _ => None
      end
  | _ => None
  end.

(** ** Example worlds *)

(** The example messages of the specification, and two more: one that
    already carries the decision keys, one whose signal slots hold values
    that are not strings. *)
Definition d_aapl : gmap string pyval :=
  {[ "symbol" := VStr "AAPL"; "alpha_signal" := VStr "BUY";
     "momentum_signal" := VStr "BUY"; "sentiment_signal" := VStr "BUY" ]}.

Definition d_msft : gmap string pyval :=
  {[ "symbol" := VStr "MSFT"; "alpha_signal" := VStr "SELL";
     "momentum_signal" := VStr "HOLD" ]}.

Definition d_nosymbol : gmap string pyval :=
  {[ "alpha_signal" := VStr "INCLUDE"; "beta_signal" := VStr "OVEREXPOSED" ]}.

Definition d_collision : gmap string pyval :=
  {[ "symbol" := VStr "TSLA"; "final_strategy_decision" := VStr "SELL";
     "strategy_votes" := VInt 42; "factor_signal" := VStr "REVERT_UP" ]}.

Definition d_untyped : gmap string pyval :=
  {[ "symbol" := VInt 7; "alpha_signal" := VBool true;
     "momentum_signal" := VFloat 1.5%float; "sentiment_signal" := VNone;
     "composite_signal" := VRef 1%nat; "beta_signal" := VRef 2%nat;
     "factor_signal" := VStr "buy"; "payload" := VRef 1%nat ]}.

(** A world whose only object is the message [d], at reference 0. *)
Definition world_of (d : gmap string pyval) : world :=
  World {[ 0%nat := ODict d ]} [].

(** A world with nested objects: a list at 1 and a dict at 2. *)
Definition w_untyped : world :=
  World {[ 0%nat := ODict d_untyped;
           1%nat := OList [VStr "BUY"; VInt 1];
           2%nat := ODict {[ "BUY" := VStr "BUY" ]} ]}
        [LogRecord INFO "started" []].

(** Another world holding the same message, at another reference and with
    another past. *)
Definition w_other : world :=
  World {[ 0%nat := OList []; 3%nat := ODict d_untyped ]}
        [LogRecord ERROR "❌ Invalid message schema: %s" [VRef 0%nat]].

(** A schema check for the examples: the message is a dict with a
    [symbol]. *)
Definition has_symbol (σ : gmap loc pyobj) (message : pyval) : bool :=
  match message with
  | VRef l =>
      match σ !! l with
      | Some (ODict d) => bool_decide (is_Some (d !! "symbol"))
      | _ => false
      end
  | _ => false
  end.

(** ** Messages that hold foreign objects *)

(** The values above are the data a decoded message holds.  A Python dict
    can hold any object, and [v in (...)] at the tally asks the object for
    its own [__eq__].  The module below runs the same source on messages
    whose values may also be such objects. *)
Module Wide.

(** [Instance eq]: an instance of a class that defines [__eq__] and has
    neither [get] nor [keys].  [eq s] is what [v == s] gives in a boolean
    context for the [str] constant [s]: a truth value, or the exception
    that [__eq__] or the truth test of its answer raises. *)
Inductive value :=
| Plain (v : pyval)
| Instance (eq : string → outcome bool).

Inductive object :=
| Dict (d : gmap string value)
| List (xs : list value).

Record log_record := LogRecord {
  levelname : log_level;
  msg : string;
  args : list value
}.

Record world := World {
  store : gmap loc object;
  records : list log_record
}.

Definition M (A : Type) : Type := world → outcome A * world.

Global Instance M_ret : MRet M := λ A a w, (Returns a, w).

Global Instance M_bind : MBind M := λ A B f c w,
  match c w with
  | (Returns a, w') => f a w'
  | (Raises e, w') => (Raises e, w')
  end.

Definition raise {A} (e : exn) : M A := λ w, (Raises e, w).

Definition read_store : M (gmap loc object) := λ w, (Returns (store w), w).

Definition alloc (o : object) : M value := λ w,
  let l := fresh (dom (store w)) in
  (Returns (Plain (VRef l)), World (<[l := o]> (store w)) (records w)).

Definition log (lvl : log_level) (fmt : string) (a : list value) : M unit :=
  λ w, (Returns tt, World (store w) (records w ++ [LogRecord lvl fmt a])).

Definition logger_debug := log DEBUG.
Definition logger_info := log INFO.

Definition py_get (o : value) (key : string) (dflt : value) : M value :=
  match o with
  | Plain (VRef l) =>
      σ ← read_store;
      match σ !! l with
      | Some (Dict d) => mret (default dflt (d !! key))
      | Some (List _) => raise AttributeError
      | None => raise SystemError
      end
  | _ => raise AttributeError
  end.

Definition py_mapping (o : value) : M (gmap string value) :=
  match o with
  | Plain (VRef l) =>
      σ ← read_store;
      match σ !! l with
      | Some (Dict d) => mret d
      | Some (List _) => raise TypeError
      | None => raise SystemError
      end
  | _ => raise TypeError
  end.

Definition dict_update (acc d : gmap string value) : gmap string value :=
  map_fold (λ k v a, <[k := v]> a) acc d.

Fixpoint dict_unpack (acc : gmap string value) (parts : list value)
  : M (gmap string value) :=
  match parts with
  | [] => mret acc
  | p :: ps => d ← py_mapping p; dict_unpack (dict_update acc d) ps
  end.

Definition py_dict_display (parts : list value) : M value :=
  d ← dict_unpack ∅ parts; alloc (Dict d).

Definition py_dict_literal (items : list (string * value)) : M value :=
  alloc (Dict (foldl (λ d kv, <[kv.1 := kv.2]> d) ∅ items)).

(** [v == s] in a boolean context, for a [str] constant [s]: [str.__eq__]
    answers for a string and declines any other value, and then the
    [__eq__] of the value is asked. *)
Definition py_eq_str (v : value) (s : string) : outcome bool :=
  match v with
  | Plain p => Returns (py_eq_str p s)
  | Instance eq => eq s
  end.

(** [v in (s1, ..., sn)]: the elements are compared from left to right,
    the first that compares equal ends the search, and an exception of a
    comparison leaves the search. *)
Fixpoint py_in (v : value) (t : list string) : outcome bool :=
  match t with
  | [] => Returns false
  | s :: t' =>
      match py_eq_str v s with
      | Returns true => Returns true
      | Returns false => py_in v t'
      | Raises e => Raises e
      end
  end.

(** The items of the generator [1 for v in votes if v in (...)], drawn
    from left to right. *)
Fixpoint ones (votes : list value) : outcome (list Z) :=
  match votes with
  | [] => Returns []
  | v :: vs =>
      match py_in v affirmative with
      | Raises e => Raises e
      | Returns b =>
          match ones vs with
          | Raises e => Raises e
          | Returns xs => Returns (if b then 1 :: xs else xs)
          end
      end
  end.

Definition count_votes (votes : list value) : M Z := λ w,
  match ones votes with
  | Returns xs => (Returns (py_sum xs), w)
  | Raises e => (Raises e, w)
  end.

Definition evaluate_strategy (message : value) : M value :=
  symbol ← py_get message "symbol" (Plain (VStr "UNKNOWN"));
  logger_info "🧮 Evaluating strategy for %s" [symbol];;
  v1 ← py_get message "alpha_signal" (Plain VNone);
  v2 ← py_get message "momentum_signal" (Plain VNone);
  v3 ← py_get message "sentiment_signal" (Plain VNone);
  v4 ← py_get message "composite_signal" (Plain VNone);
  v5 ← py_get message "beta_signal" (Plain VNone);
  v6 ← py_get message "factor_signal" (Plain VNone);
  let votes := [v1; v2; v3; v4; v5; v6] in
  vote_count ← count_votes votes;
  let decision := decide_votes vote_count in
  result ← py_dict_literal
             [("final_strategy_decision", Plain (VStr decision));
              ("strategy_votes", Plain (VInt vote_count))];
  logger_debug "✅ Final strategy decision for %s: %s" [symbol; result];;
  py_dict_display [message; result].

(** Field [k] of message [d] holds one of the four token strings. *)
Definition holds_affirmative (d : gmap string value) (k : string) : Prop :=
  match d !! k with
  | Some (Plain (VStr s)) => s ∈ affirmative_tokens
  | _ => False
  end.

Global Instance holds_affirmative_dec d k : Decision (holds_affirmative d k).
Proof.
  unfold holds_affirmative.
  destruct (d !! k) as [[[]|]|]; apply _.
Defined.

Definition affirmative_fields (d : gmap string value) : nat :=
  length (filter (holds_affirmative d) signal_fields).

(** A value compares as data does with the four tokens: it is plain, or
    its [__eq__] answers false to each of them and raises on none. *)
Definition compares_as_data (v : value) : Prop :=
  match v with
  | Plain _ => True
  | Instance eq => ∀ s, s ∈ affirmative_tokens → eq s = Returns false
  end.

(** The dict bound to [result] when the tally gave [n], and the world a
    call that returns leaves. *)
Definition decision_result (n : Z) : gmap string value :=
  <["strategy_votes" := Plain (VInt n)]>
    (<["final_strategy_decision" := Plain (VStr (decide_votes n))]> ∅).

Definition result_loc (w : world) : loc := fresh (dom (store w)).

Definition output_loc (w : world) (n : Z) : loc :=
  fresh (dom (<[result_loc w := Dict (decision_result n)]> (store w))).

Definition evaluate_world (w : world) (d : gmap string value) (n : Z)
  : world :=
  let symbol := default (Plain (VStr "UNKNOWN")) (d !! "symbol") in
  World
    (<[output_loc w n := Dict (decision_result n ∪ d)]>
       (<[result_loc w := Dict (decision_result n)]> (store w)))
    (records w ++
       [LogRecord INFO "🧮 Evaluating strategy for %s" [symbol];
        LogRecord DEBUG "✅ Final strategy decision for %s: %s"
          [symbol; Plain (VRef (result_loc w))]]).

(** The content of the dict a call returns, when it returns one. *)
Definition run_evaluate (w : world) (message : value)
  : option (gmap string value) :=
  match evaluate_strategy message w with
  | (Returns (Plain (VRef l')), w') =>
      match store w' !! l' with
      | Some (Dict out) => Some out
      | _ => None
      end
  | _ => None
  end.




Definition world_of (d : gmap string value) : world :=
  World {[ 0%nat := Dict d ]} [].





End Wide.

(** A world of plain data, seen as a world of the wider model. *)
Definition lift_object (o : pyobj) : Wide.object :=
  match o with
  | ODict d => Wide.Dict (Wide.Plain <$> d)
  | OList xs => Wide.List (Wide.Plain <$> xs)
  end.

Definition lift_record (r : log_record) : Wide.log_record :=
  Wide.LogRecord (levelname r) (msg r) (Wide.Plain <$> args r).

Definition lift_world (w : world) : Wide.world :=
  Wide.World (lift_object <$> store w) (lift_record <$> records w).

Definition lift_outcome (o : outcome pyval) : outcome Wide.value :=
  match o with
  | Returns v => Returns (Wide.Plain v)
  | Raises e => Raises e
  end.

(** ** Lemmas on the operations *)

Lemma dict_update_union (acc d : gmap string pyval) :
  dict_update acc d = d ∪ acc.
Proof.
  unfold dict_update.
  apply (map_fold_weak_ind (λ r m, r = m ∪ acc)).
  - by rewrite (left_id_L ∅ (∪)).
  - intros i x m r _ ->. by rewrite insert_union_l.
Qed.

Lemma enriched_union d : enriched d = decision_result d ∪ d.
Proof.
  unfold enriched. rewrite !dict_update_union.
  by rewrite (right_id_L ∅ (∪)).
Qed.

Lemma foldl_add_acc (a : Z) (xs : list Z) :
  foldl Z.add a xs = a + foldl Z.add 0 xs.
Proof.
  revert a. induction xs as [|y ys IH]; intros a; simpl; [lia|].
  rewrite (IH (a + y)), (IH (0 + y)). lia.
Qed.

Lemma py_sum_cons x xs : py_sum (x :: xs) = x + py_sum xs.
Proof. unfold py_sum. simpl. apply foldl_add_acc. Qed.

Lemma count_votes_nil : count_votes [] = 0.
Proof. reflexivity. Qed.

Lemma count_votes_cons v vs :
  count_votes (v :: vs)
  = (if py_in v affirmative then 1 else 0) + count_votes vs.
Proof.
  unfold count_votes. cbn [List.filter].
  destruct (py_in v affirmative); [|done].
  rewrite fmap_cons. apply py_sum_cons.
Qed.

Lemma count_votes_bounds vs : 0 ≤ count_votes vs ≤ Z.of_nat (length vs).
Proof.
  induction vs as [|v vs IH]; [done|].
  rewrite count_votes_cons. simpl length.
  destruct (py_in v affirmative); lia.
Qed.

Lemma elem_of_affirmative_tokens s :
  s ∈ affirmative_tokens
  ↔ s = "BUY" ∨ s = "INCLUDE" ∨ s = "OVEREXPOSED" ∨ s = "REVERT_UP".
Proof.
  unfold affirmative_tokens.
  rewrite !elem_of_union, !elem_of_singleton. tauto.
Qed.

Lemma py_in_affirmative v :
  py_in v affirmative = true ↔ ∃ s, v = VStr s ∧ s ∈ affirmative_tokens.
Proof.
  unfold py_in, affirmative. split.
  - intros H. destruct v; simpl in H; try discriminate.
    exists s. split; [done|]. apply elem_of_affirmative_tokens.
    rewrite !orb_true_iff, !String.eqb_eq in H. intuition discriminate.
  - intros (s & -> & Hs%elem_of_affirmative_tokens). simpl.
    rewrite !orb_true_iff, !String.eqb_eq. tauto.
Qed.

Lemma py_in_holds d k :
  py_in (default VNone (d !! k)) affirmative = true ↔ holds_affirmative d k.
Proof.
  rewrite py_in_affirmative. unfold holds_affirmative.
  destruct (d !! k) as [v|]; simpl.
  - split.
    + by intros (s & -> & Hs).
    + destruct v; try done. eauto.
  - split; [by intros (s & ? & _) | done].
Qed.

Lemma count_votes_fields d (ks : list string) :
  count_votes ((λ k, default VNone (d !! k)) <$> ks)
  = Z.of_nat (length (filter (holds_affirmative d) ks)).
Proof.
  induction ks as [|k ks IH]; [done|].
  rewrite fmap_cons, count_votes_cons, IH, filter_cons.
  destruct (decide (holds_affirmative d k)) as [Hk|Hk].
  - apply py_in_holds in Hk. rewrite Hk. simpl length. lia.
  - destruct (py_in _ affirmative) eqn:E; [|done].
    apply py_in_holds in E. done.
Qed.

(** ** Running the monad *)

Lemma bind_run {A B} (c : M A) (f : A → M B) (w : world) :
  (c ≫= f) w
  = match c w with
    | (Returns a, w') => f a w'
    | (Raises e, w') => (Raises e, w')
    end.
Proof. reflexivity. Qed.

Lemma bind_returns {A B} (c : M A) (f : A → M B) (w w' : world) (a : A) :
  c w = (Returns a, w') → (c ≫= f) w = f a w'.
Proof. intros H. by rewrite bind_run, H. Qed.

Lemma log_run lvl fmt a w :
  log lvl fmt a w
  = (Returns tt, World (store w) (records w ++ [LogRecord lvl fmt a])).
Proof. reflexivity. Qed.

Lemma py_get_dict w l d key dflt :
  store w !! l = Some (ODict d) →
  py_get (VRef l) key dflt w = (Returns (default dflt (d !! key)), w).
Proof. intros H. unfold py_get. rewrite bind_run. simpl. by rewrite H. Qed.

Lemma py_mapping_dict w l d :
  store w !! l = Some (ODict d) →
  py_mapping (VRef l) w = (Returns d, w).
Proof. intros H. unfold py_mapping. rewrite bind_run. simpl. by rewrite H. Qed.

Lemma alloc_run o w :
  alloc o w
  = (Returns (VRef (fresh (dom (store w)))),
     World (<[fresh (dom (store w)) := o]> (store w)) (records w)).
Proof. reflexivity. Qed.

Lemma fresh_lookup (σ : gmap loc pyobj) : σ !! fresh (dom σ) = None.
Proof. apply not_elem_of_dom, is_fresh. Qed.

Lemma fresh_ne (σ : gmap loc pyobj) l o :
  σ !! l = Some o → fresh (dom σ) ≠ l.
Proof. intros H E. by rewrite <- E, fresh_lookup in H. Qed.

Lemma evaluate_strategy_run w l d :
  store w !! l = Some (ODict d) →
  evaluate_strategy (VRef l) w
  = (Returns (VRef (output_loc w d)), evaluate_world w d).
Proof.
  intros H. unfold evaluate_strategy, logger_info, logger_debug.
  rewrite (bind_returns _ _ _ _ _ (py_get_dict _ _ _ _ _ H)).
  rewrite (bind_returns _ _ _ _ _ (log_run _ _ _ _)).
  do 6 (erewrite bind_returns; [|by apply py_get_dict]).
  unfold py_dict_literal.
  rewrite (bind_returns _ _ _ _ _ (alloc_run _ _)).
  rewrite (bind_returns _ _ _ _ _ (log_run _ _ _ _)).
  unfold py_dict_display. cbn [dict_unpack store records].
  assert (Hl : <[fresh (dom (store w)) :=
                ODict (decision_result d)]> (store w) !! l = Some (ODict d)).
  { rewrite lookup_insert_ne; [exact H|]. by eapply fresh_ne. }
  erewrite bind_returns; cycle 1.
  { erewrite bind_returns; [|by apply py_mapping_dict].
    erewrite bind_returns; [reflexivity|].
    apply py_mapping_dict. cbn [store]. apply lookup_insert_eq. }
  rewrite alloc_run. cbn [store records]. rewrite <- app_assoc.
  reflexivity.
Qed.

Lemma evaluates_run w l d :
  store w !! l = Some (ODict d) →
  evaluates w (VRef l) (enriched d) (evaluate_world w d).
Proof.
  intros H. exists (output_loc w d). split.
  - by apply evaluate_strategy_run.
  - apply lookup_insert_eq.
Qed.

(** A message that is not a reference has no [get]. *)
Lemma evaluate_strategy_immediate v w :
  (∀ l, v ≠ VRef l) →
  evaluate_strategy v w = (Raises AttributeError, w).
Proof. intros Hv. destruct v; try done. by destruct (Hv l). Qed.

(** ** The content of the returned dict *)

Lemma enriched_votes d :
  enriched d !! "strategy_votes" = Some (VInt (count_votes (votes_of d))).
Proof.
  rewrite enriched_union. apply lookup_union_Some_l.
  unfold decision_result. apply lookup_insert_eq.
Qed.

Lemma enriched_decision d :
  enriched d !! "final_strategy_decision"
  = Some (VStr (decide_votes (count_votes (votes_of d)))).
Proof.
  rewrite enriched_union. apply lookup_union_Some_l.
  unfold decision_result. rewrite lookup_insert_ne by done.
  apply lookup_insert_eq.
Qed.

Lemma decision_result_other d k :
  k ≠ "final_strategy_decision" → k ≠ "strategy_votes" →
  decision_result d !! k = None.
Proof.
  intros H1 H2. unfold decision_result.
  by rewrite !lookup_insert_ne, lookup_empty.
Qed.

Lemma enriched_other d k :
  k ≠ "final_strategy_decision" → k ≠ "strategy_votes" →
  enriched d !! k = d !! k.
Proof.
  intros H1 H2. rewrite enriched_union.
  apply lookup_union_r. by apply decision_result_other.
Qed.

Lemma votes_of_count d :
  count_votes (votes_of d) = Z.of_nat (affirmative_fields d).
Proof. apply count_votes_fields. Qed.

Lemma affirmative_fields_le d : (affirmative_fields d ≤ 6)%nat.
Proof.
  unfold affirmative_fields.
  etrans; [apply length_filter|]. done.
Qed.

Lemma decide_votes_buy n : decide_votes n = "BUY" ↔ 3 ≤ n.
Proof.
  unfold decide_votes. destruct (n >=? 3) eqn:E.
  - apply Z.geb_le in E. done.
  - split; [done|]. intros Hn. apply Z.geb_le in Hn. congruence.
Qed.

Lemma decide_votes_hold n : decide_votes n = "HOLD" ↔ n < 3.
Proof.
  unfold decide_votes. destruct (n >=? 3) eqn:E.
  - apply Z.geb_le in E. split; [done | lia].
  - split; [|done]. intros _.
    destruct (Z_lt_le_dec n 3) as [|Hn]; [done|].
    apply Z.geb_le in Hn. congruence.
Qed.

Lemma decide_votes_decide n :
  decide_votes n = if decide (3 ≤ n) then "BUY" else "HOLD".
Proof.
  case_decide as Hn.
  - by apply decide_votes_buy.
  - apply decide_votes_hold. lia.
Qed.

Lemma logged_symbol_absent d :
  d !! "symbol" = None → logged_symbol d = VStr "UNKNOWN".
Proof. intros H. unfold logged_symbol. by rewrite H. Qed.

Lemma shallow_merge_union m r : shallow_merge m r = r ∪ m.
Proof. reflexivity. Qed.

Lemma shallow_merge_lookup m r k :
  shallow_merge m r !! k
  = match r !! k with Some v => Some v | None => m !! k end.
Proof.
  rewrite shallow_merge_union, lookup_union.
  by destruct (r !! k), (m !! k).
Qed.

Lemma affirmative_fields_delete d k v :
  d !! k = Some v →
  (∀ s, s ∈ affirmative_tokens → v ≠ VStr s) →
  affirmative_fields (delete k d) = affirmative_fields d.
Proof.
  intros Hk Hv. unfold affirmative_fields. f_equal.
  apply list_filter_iff. intros k'. unfold holds_affirmative.
  destruct (decide (k' = k)) as [->|Hne].
  - rewrite lookup_delete_eq, Hk. destruct v; try done.
    split; [done|]. intros Hs. by apply (Hv s).
  - by rewrite lookup_delete_ne.
Qed.

(** ** The store after the call *)

Lemma result_loc_fresh w : store w !! result_loc w = None.
Proof. apply fresh_lookup. Qed.

Lemma output_loc_fresh w d : store w !! output_loc w d = None.
Proof.
  unfold output_loc.
  pose proof (fresh_lookup
    (<[result_loc w := ODict (decision_result d)]> (store w))) as H.
  apply lookup_insert_None in H. tauto.
Qed.

Lemma evaluate_world_frame w d l o :
  store w !! l = Some o → store (evaluate_world w d) !! l = Some o.
Proof.
  intros H. unfold evaluate_world. cbn [store].
  rewrite !lookup_insert_ne; [done| |].
  - intros E. by rewrite <- E, result_loc_fresh in H.
  - intros E. by rewrite <- E, output_loc_fresh in H.
Qed.

Lemma evaluate_world_result w d :
  store (evaluate_world w d) !! result_loc w
  = Some (ODict (decision_result d)).
Proof.
  unfold evaluate_world. cbn [store].
  rewrite lookup_insert_ne.
  - apply lookup_insert_eq.
  - unfold output_loc. intros E.
    pose proof (fresh_lookup
      (<[result_loc w := ODict (decision_result d)]> (store w))) as H.
    rewrite E, lookup_insert_eq in H. done.
Qed.

(** ** The run of [validate_input_message] *)

Lemma validate_accepts check message w :
  check (store w) message = true →
  validate_input_message check message w
  = (Returns message,
     World (store w)
       (records w ++ [LogRecord DEBUG "🔍 Validating message schema..." []])).
Proof.
  intros H. unfold validate_input_message, logger_debug.
  rewrite (bind_returns _ _ _ _ _ (log_run _ _ _ _)).
  rewrite bind_run. cbn [read_store store]. by rewrite H.
Qed.

Lemma validate_rejects check message w :
  check (store w) message = false →
  validate_input_message check message w
  = (Raises (ValueError "Invalid message format"),
     World (store w)
       (records w ++
          [LogRecord DEBUG "🔍 Validating message schema..." [];
           LogRecord ERROR "❌ Invalid message schema: %s" [message]])).
Proof.
  intros H. unfold validate_input_message, logger_debug, logger_error.
  rewrite (bind_returns _ _ _ _ _ (log_run _ _ _ _)).
  rewrite bind_run. cbn [read_store store]. rewrite H. cbn [negb].
  rewrite (bind_returns _ _ _ _ _ (log_run _ _ _ _)).
  unfold raise. cbn [store records]. by rewrite <- app_assoc.
Qed.

(** ** A field that does not count *)

Lemma evaluates_without_field w l d k v w2 l2 :
  store w !! l = Some (ODict d) →
  d !! k = Some v →
  (∀ s, s ∈ affirmative_tokens → v ≠ VStr s) →
  store w2 !! l2 = Some (ODict (delete k d)) →
  ∃ out w' out2 w2' n,
    evaluates w (VRef l) out w'
    ∧ evaluates w2 (VRef l2) out2 w2'
    ∧ out !! "strategy_votes" = Some (VInt n)
    ∧ out2 !! "strategy_votes" = Some (VInt n).
Proof.
  intros H Hk Hv H2.
  exists (enriched d), (evaluate_world w d),
    (enriched (delete k d)), (evaluate_world w2 (delete k d)),
    (Z.of_nat (affirmative_fields d)).
  split; [by apply evaluates_run|].
  split; [by apply evaluates_run|].
  rewrite !enriched_votes, !votes_of_count.
  by rewrite (affirmative_fields_delete d k v).
Qed.

(** ** The scenarios of the specification *)

Example evaluate_aapl :
  run_evaluate (world_of d_aapl) (VRef 0%nat)
  = Some (<["strategy_votes" := VInt 3]>
            (<["final_strategy_decision" := VStr "BUY"]> d_aapl)).
Proof. vm_compute. reflexivity. Qed.

Example evaluate_msft :
  run_evaluate (world_of d_msft) (VRef 0%nat)
  = Some (<["strategy_votes" := VInt 0]>
            (<["final_strategy_decision" := VStr "HOLD"]> d_msft)).
Proof. vm_compute. reflexivity. Qed.

Example evaluate_nosymbol :
  run_evaluate (world_of d_nosymbol) (VRef 0%nat)
  = Some (<["strategy_votes" := VInt 2]>
            (<["final_strategy_decision" := VStr "HOLD"]> d_nosymbol))
  ∧ records (evaluate_strategy (VRef 0%nat) (world_of d_nosymbol)).2
    = [LogRecord INFO "🧮 Evaluating strategy for %s" [VStr "UNKNOWN"];
       LogRecord DEBUG "✅ Final strategy decision for %s: %s"
         [VStr "UNKNOWN"; VRef 1%nat]].
Proof. split; vm_compute; reflexivity. Qed.

Example evaluate_collision :
  run_evaluate (world_of d_collision) (VRef 0%nat)
  = Some (<["strategy_votes" := VInt 1]>
            (<["final_strategy_decision" := VStr "HOLD"]> d_collision)).
Proof. vm_compute. reflexivity. Qed.

Example evaluate_untyped :
  run_evaluate w_untyped (VRef 0%nat)
  = Some (<["strategy_votes" := VInt 0]>
            (<["final_strategy_decision" := VStr "HOLD"]> d_untyped)).
Proof. vm_compute. reflexivity. Qed.

Example evaluate_list :
  (evaluate_strategy (VRef 1%nat) w_untyped).1 = Raises AttributeError.
Proof. reflexivity. Qed.

Example validate_rejects_nosymbol :
  (validate_input_message has_symbol (VRef 0%nat) (world_of d_nosymbol)).1
  = Raises (ValueError "Invalid message format").
Proof. vm_compute. reflexivity. Qed.

Example validate_accepts_aapl :
  (validate_input_message has_symbol (VRef 0%nat) (world_of d_aapl)).1
  = Returns (VRef 0%nat).
Proof. vm_compute. reflexivity. Qed.

(** A signal slot that holds a reference to a list: dropping the field
    leaves the count as it is. *)
Example nested_value_counts_zero :
  ∃ out w' out2 w2' n,
    evaluates w_untyped (VRef 0%nat) out w'
    ∧ evaluates (world_of (delete "composite_signal" d_untyped))
        (VRef 0%nat) out2 w2'
    ∧ out !! "strategy_votes" = Some (VInt n)
    ∧ out2 !! "strategy_votes" = Some (VInt n).
Proof.
  apply (evaluates_without_field w_untyped 0%nat d_untyped
           "composite_signal" (VRef 1%nat)); done.
Qed.

(** ** The properties of the specification *)

(** C1 (threshold law): for every message [d] that is a mapping, the call
    returns a dict whose [final_strategy_decision] is "BUY" exactly when
    its [strategy_votes] is at least 3, and "HOLD" exactly when it is
    below 3. *)
Theorem threshold_law (w : world) (l : loc) (d : gmap string pyval) :
  store w !! l = Some (ODict d) →
  ∃ out w' n,
    evaluates w (VRef l) out w'
    ∧ out !! "strategy_votes" = Some (VInt n)
    ∧ (out !! "final_strategy_decision" = Some (VStr "BUY") ↔ 3 ≤ n)
    ∧ (out !! "final_strategy_decision" = Some (VStr "HOLD") ↔ n < 3).
Proof.
  intros H.
  exists (enriched d), (evaluate_world w d), (count_votes (votes_of d)).
  split; [by apply evaluates_run|].
  split; [apply enriched_votes|].
  rewrite enriched_decision. split.
  - rewrite <- decide_votes_buy. split; congruence.
  - rewrite <- decide_votes_hold. split; congruence.
Qed.

Lemma threshold_law_witness :
  store (world_of d_aapl) !! 0%nat = Some (ODict d_aapl)
  ∧ ∃ out w' n,
      evaluates (world_of d_aapl) (VRef 0%nat) out w'
      ∧ out !! "strategy_votes" = Some (VInt n)
      ∧ (out !! "final_strategy_decision" = Some (VStr "BUY") ↔ 3 ≤ n)
      ∧ (out !! "final_strategy_decision" = Some (VStr "HOLD") ↔ n < 3).
Proof.
  split; [reflexivity|].
  apply (threshold_law (world_of d_aapl) 0%nat d_aapl). reflexivity.
Defined.

(** C2 (vote count): the [strategy_votes] of the returned dict is the
    number of the six signal fields whose value in the message is one of
    the four affirmative tokens; an absent field and a field holding
    anything else are not counted. *)
Theorem votes_count_affirmative_fields
    (w : world) (l : loc) (d : gmap string pyval) :
  store w !! l = Some (ODict d) →
  ∃ out w',
    evaluates w (VRef l) out w'
    ∧ out !! "strategy_votes" = Some (VInt (Z.of_nat (affirmative_fields d)))
    ∧ (∀ k, holds_affirmative d k
            ↔ ∃ s, d !! k = Some (VStr s)
                   ∧ (s = "BUY" ∨ s = "INCLUDE"
                      ∨ s = "OVEREXPOSED" ∨ s = "REVERT_UP")).
Proof.
  intros H. exists (enriched d), (evaluate_world w d).
  split; [by apply evaluates_run|]. split.
  - rewrite enriched_votes. by rewrite votes_of_count.
  - intros k. unfold holds_affirmative.
    destruct (d !! k) as [v|].
    + destruct v;
        try (split; [done | by intros (s & [= ] & _)]).
      rewrite elem_of_affirmative_tokens. split.
      * intros Hs. by exists s.
      * by intros (s' & [= <-] & Hs).
    + split; [done | by intros (s & [= ] & _)].
Qed.

Lemma votes_count_affirmative_fields_witness :
  store (world_of d_nosymbol) !! 0%nat = Some (ODict d_nosymbol)
  ∧ ∃ out w',
      evaluates (world_of d_nosymbol) (VRef 0%nat) out w'
      ∧ out !! "strategy_votes"
        = Some (VInt (Z.of_nat (affirmative_fields d_nosymbol)))
      ∧ (∀ k, holds_affirmative d_nosymbol k
              ↔ ∃ s, d_nosymbol !! k = Some (VStr s)
                     ∧ (s = "BUY" ∨ s = "INCLUDE"
                        ∨ s = "OVEREXPOSED" ∨ s = "REVERT_UP")).
Proof.
  split; [reflexivity|].
  apply (votes_count_affirmative_fields (world_of d_nosymbol) 0%nat d_nosymbol).
  reflexivity.
Defined.

(** C3 (validator gate): [validate_input_message] raises exactly when the
    schema check answers false, and what it raises is the [ValueError] of
    an invalid format; when the check answers true it returns the very
    value it was given and the store is as it was. *)
Theorem validator_gate
    (check : gmap loc pyobj → pyval → bool) (message : pyval) (w : world) :
  ((∃ e w', validate_input_message check message w = (Raises e, w'))
   ↔ check (store w) message = false)
  ∧ (∀ e w', validate_input_message check message w = (Raises e, w') →
             e = ValueError "Invalid message format")
  ∧ ((∃ w', validate_input_message check message w = (Returns message, w')
            ∧ store w' = store w)
     ↔ check (store w) message = true)
  ∧ (∀ v w', validate_input_message check message w = (Returns v, w') →
             v = message ∧ store w' = store w).
Proof.
  destruct (check (store w) message) eqn:E.
  - rewrite (validate_accepts _ _ _ E). split; [|split; [|split]].
    + split; [by intros (e & w' & [= ]) | done].
    + intros e w' [= ].
    + split; [done|]. intros _. by eexists.
    + by intros v w' [= <- <-].
  - rewrite (validate_rejects _ _ _ E). split; [|split; [|split]].
    + split; [done|]. intros _. by do 2 eexists.
    + by intros e w' [= <- _].
    + split; [by intros (w' & [= ] & _) | done].
    + intros v w' [= ].
Qed.

(** C4 (merge preservation): every key of the message other than
    [final_strategy_decision] and [strategy_votes] is in the returned dict
    with the value it has in the message, and what that value refers to is
    still in the store as it was. *)
Theorem merge_preserves_keys (w : world) (l : loc) (d : gmap string pyval) :
  store w !! l = Some (ODict d) →
  ∃ out w',
    evaluates w (VRef l) out w'
    ∧ (∀ k v, k ≠ "final_strategy_decision" → k ≠ "strategy_votes" →
              d !! k = Some v → out !! k = Some v)
    ∧ (∀ l0 o, store w !! l0 = Some o → store w' !! l0 = Some o).
Proof.
  intros H. exists (enriched d), (evaluate_world w d).
  split; [by apply evaluates_run|]. split.
  - intros k v H1 H2 Hk. by rewrite enriched_other.
  - intros l0 o. apply evaluate_world_frame.
Qed.

Lemma merge_preserves_keys_witness :
  store w_untyped !! 0%nat = Some (ODict d_untyped)
  ∧ ∃ out w',
      evaluates w_untyped (VRef 0%nat) out w'
      ∧ (∀ k v, k ≠ "final_strategy_decision" → k ≠ "strategy_votes" →
                d_untyped !! k = Some v → out !! k = Some v)
      ∧ (∀ l0 o, store w_untyped !! l0 = Some o → store w' !! l0 = Some o).
Proof.
  split; [reflexivity|].
  apply (merge_preserves_keys w_untyped 0%nat d_untyped). reflexivity.
Defined.

(** C5 (overlay): the returned dict is the shallow merge of the message
    with the decision result built by the call, a new object holding
    exactly the decision and the vote count; on the two decision keys the
    result's values win, also when the message has such keys. *)
Theorem merge_overlays_decision (w : world) (l : loc) (d : gmap string pyval) :
  store w !! l = Some (ODict d) →
  ∃ out w' lr result n,
    evaluates w (VRef l) out w'
    ∧ store w !! lr = None
    ∧ store w' !! lr = Some (ODict result)
    ∧ n = Z.of_nat (affirmative_fields d)
    ∧ result = <["strategy_votes" := VInt n]>
                 {["final_strategy_decision" :=
                     VStr (if decide (3 ≤ n) then "BUY" else "HOLD")]}
    ∧ out = shallow_merge d result
    ∧ (∀ k, out !! k
            = match result !! k with Some v => Some v | None => d !! k end).
Proof.
  intros H.
  exists (enriched d), (evaluate_world w d), (result_loc w),
    (decision_result d), (count_votes (votes_of d)).
  split; [by apply evaluates_run|].
  split; [apply result_loc_fresh|].
  split; [apply evaluate_world_result|].
  split; [apply votes_of_count|].
  split.
  { unfold decision_result. by rewrite decide_votes_decide, insert_empty. }
  split.
  - rewrite shallow_merge_union. apply enriched_union.
  - intros k. rewrite <- shallow_merge_lookup, shallow_merge_union.
    by rewrite enriched_union.
Qed.

Lemma merge_overlays_decision_witness :
  store (world_of d_collision) !! 0%nat = Some (ODict d_collision)
  ∧ ∃ out w' lr result n,
      evaluates (world_of d_collision) (VRef 0%nat) out w'
      ∧ store (world_of d_collision) !! lr = None
      ∧ store w' !! lr = Some (ODict result)
      ∧ n = Z.of_nat (affirmative_fields d_collision)
      ∧ result = <["strategy_votes" := VInt n]>
                   {["final_strategy_decision" :=
                       VStr (if decide (3 ≤ n) then "BUY" else "HOLD")]}
      ∧ out = shallow_merge d_collision result
      ∧ (∀ k, out !! k
              = match result !! k with
                | Some v => Some v
                | None => d_collision !! k
                end).
Proof.
  split; [reflexivity|].
  apply (merge_overlays_decision (world_of d_collision) 0%nat d_collision).
  reflexivity.
Defined.

(** C6 (ranges): the [strategy_votes] of the returned dict is an integer
    between 0 and 6, and its [final_strategy_decision] is the string "BUY"
    or the string "HOLD". *)
Theorem votes_and_decision_range (w : world) (l : loc) (d : gmap string pyval) :
  store w !! l = Some (ODict d) →
  ∃ out w' n s,
    evaluates w (VRef l) out w'
    ∧ out !! "strategy_votes" = Some (VInt n)
    ∧ 0 ≤ n ≤ 6
    ∧ out !! "final_strategy_decision" = Some (VStr s)
    ∧ (s = "BUY" ∨ s = "HOLD").
Proof.
  intros H.
  exists (enriched d), (evaluate_world w d), (count_votes (votes_of d)),
    (decide_votes (count_votes (votes_of d))).
  split; [by apply evaluates_run|].
  split; [apply enriched_votes|].
  split; [apply (count_votes_bounds (votes_of d))|].
  split; [apply enriched_decision|].
  rewrite decide_votes_decide. case_decide; auto.
Qed.

Lemma votes_and_decision_range_witness :
  store (world_of d_msft) !! 0%nat = Some (ODict d_msft)
  ∧ ∃ out w' n s,
      evaluates (world_of d_msft) (VRef 0%nat) out w'
      ∧ out !! "strategy_votes" = Some (VInt n)
      ∧ 0 ≤ n ≤ 6
      ∧ out !! "final_strategy_decision" = Some (VStr s)
      ∧ (s = "BUY" ∨ s = "HOLD").
Proof.
  split; [reflexivity|].
  apply (votes_and_decision_range (world_of d_msft) 0%nat d_msft).
  reflexivity.
Defined.

(** C7 (determinism): what the call returns depends on the content of the
    message only.  From any two worlds that hold the same message, at
    whatever references and with whatever other objects and log records,
    the two calls return dicts of the same content; and a second call
    made in the world the first one left returns that content again. *)
Theorem evaluate_deterministic
    (w1 w2 : world) (l1 l2 : loc) (d : gmap string pyval) :
  store w1 !! l1 = Some (ODict d) →
  store w2 !! l2 = Some (ODict d) →
  ∃ out w1' w2' w1'',
    evaluates w1 (VRef l1) out w1'
    ∧ evaluates w2 (VRef l2) out w2'
    ∧ evaluates w1' (VRef l1) out w1''.
Proof.
  intros H1 H2.
  exists (enriched d), (evaluate_world w1 d), (evaluate_world w2 d),
    (evaluate_world (evaluate_world w1 d) d).
  split; [by apply evaluates_run|].
  split; [by apply evaluates_run|].
  apply evaluates_run. by apply evaluate_world_frame.
Qed.

Lemma evaluate_deterministic_witness :
  (store w_untyped !! 0%nat = Some (ODict d_untyped)
   ∧ store w_other !! 3%nat = Some (ODict d_untyped))
  ∧ ∃ out w1' w2' w1'',
      evaluates w_untyped (VRef 0%nat) out w1'
      ∧ evaluates w_other (VRef 3%nat) out w2'
      ∧ evaluates w1' (VRef 0%nat) out w1''.
Proof.
  split; [split; reflexivity|].
  apply (evaluate_deterministic w_untyped w_other 0%nat 3%nat d_untyped);
    reflexivity.
Defined.

(** C8 (default symbol): when the message has no [symbol], the call still
    returns; the two log records it emits carry the string "UNKNOWN" where
    the symbol goes, and the returned dict has the vote count and the
    decision of the message. *)
Theorem symbol_defaults_to_unknown
    (w : world) (l : loc) (d : gmap string pyval) :
  store w !! l = Some (ODict d) →
  d !! "symbol" = None →
  ∃ out w' lr,
    evaluates w (VRef l) out w'
    ∧ records w'
      = (records w ++
         [LogRecord INFO "🧮 Evaluating strategy for %s" [VStr "UNKNOWN"];
          LogRecord DEBUG "✅ Final strategy decision for %s: %s"
            [VStr "UNKNOWN"; VRef lr]])%list
    ∧ out !! "symbol" = None
    ∧ out !! "strategy_votes" = Some (VInt (Z.of_nat (affirmative_fields d)))
    ∧ out !! "final_strategy_decision"
      = Some (VStr (if decide (3 ≤ affirmative_fields d)%nat
                    then "BUY" else "HOLD")).
Proof.
  intros H Hs. exists (enriched d), (evaluate_world w d), (result_loc w).
  split; [by apply evaluates_run|].
  split.
  { unfold evaluate_world. cbn [records].
    by rewrite (logged_symbol_absent _ Hs). }
  split; [by rewrite enriched_other|].
  split; [by rewrite enriched_votes, votes_of_count|].
  rewrite enriched_decision, decide_votes_decide, votes_of_count.
  do 2 f_equal. repeat case_decide; (done || lia).
Qed.

Lemma symbol_defaults_to_unknown_witness :
  (store (world_of d_nosymbol) !! 0%nat = Some (ODict d_nosymbol)
   ∧ d_nosymbol !! "symbol" = None)
  ∧ ∃ out w' lr,
      evaluates (world_of d_nosymbol) (VRef 0%nat) out w'
      ∧ records w'
        = (records (world_of d_nosymbol) ++
           [LogRecord INFO "🧮 Evaluating strategy for %s" [VStr "UNKNOWN"];
            LogRecord DEBUG "✅ Final strategy decision for %s: %s"
              [VStr "UNKNOWN"; VRef lr]])%list
      ∧ out !! "symbol" = None
      ∧ out !! "strategy_votes"
        = Some (VInt (Z.of_nat (affirmative_fields d_nosymbol)))
      ∧ out !! "final_strategy_decision"
        = Some (VStr (if decide (3 ≤ affirmative_fields d_nosymbol)%nat
                      then "BUY" else "HOLD")).
Proof.
  split; [split; reflexivity|].
  apply (symbol_defaults_to_unknown (world_of d_nosymbol) 0%nat d_nosymbol);
    reflexivity.
Defined.

(** C10 (no mutation): the dict [evaluate_strategy] returns is a new
    object, at a reference the store did not hold before the call; the
    message and every other object of the store are after the call what
    they were before it.  [validate_input_message] leaves the whole store
    as it was, and either returns the reference it was given or raises. *)
Theorem inputs_not_mutated
    (check : gmap loc pyobj → pyval → bool)
    (w : world) (l : loc) (d : gmap string pyval) :
  store w !! l = Some (ODict d) →
  (∃ l' out w',
     evaluate_strategy (VRef l) w = (Returns (VRef l'), w')
     ∧ store w' !! l' = Some (ODict out)
     ∧ store w !! l' = None
     ∧ l' ≠ l
     ∧ store w' !! l = Some (ODict d)
     ∧ (∀ l0 o, store w !! l0 = Some o → store w' !! l0 = Some o))
  ∧ (∃ r w',
       validate_input_message check (VRef l) w = (r, w')
       ∧ store w' = store w
       ∧ (r = Returns (VRef l)
          ∨ r = Raises (ValueError "Invalid message format"))).
Proof.
  intros H. split.
  - exists (output_loc w d), (enriched d), (evaluate_world w d).
    split; [by apply evaluate_strategy_run|].
    split; [apply lookup_insert_eq|].
    split; [apply output_loc_fresh|].
    split.
    { intros E. by rewrite <- E, output_loc_fresh in H. }
    split; [by apply evaluate_world_frame|].
    intros l0 o. apply evaluate_world_frame.
  - destruct (check (store w) (VRef l)) eqn:E.
    + rewrite (validate_accepts _ _ _ E). do 2 eexists. eauto.
    + rewrite (validate_rejects _ _ _ E). do 2 eexists. eauto.
Qed.

Lemma inputs_not_mutated_witness :
  store (world_of d_collision) !! 0%nat = Some (ODict d_collision)
  ∧ (∃ l' out w',
       evaluate_strategy (VRef 0%nat) (world_of d_collision)
       = (Returns (VRef l'), w')
       ∧ store w' !! l' = Some (ODict out)
       ∧ store (world_of d_collision) !! l' = None
       ∧ l' ≠ 0%nat
       ∧ store w' !! 0%nat = Some (ODict d_collision)
       ∧ (∀ l0 o, store (world_of d_collision) !! l0 = Some o →
                  store w' !! l0 = Some o))
  ∧ (∃ r w',
       validate_input_message has_symbol (VRef 0%nat) (world_of d_collision)
       = (r, w')
       ∧ store w' = store (world_of d_collision)
       ∧ (r = Returns (VRef 0%nat)
          ∨ r = Raises (ValueError "Invalid message format"))).
Proof.
  split; [reflexivity|].
  apply (inputs_not_mutated has_symbol (world_of d_collision) 0%nat
           d_collision).
  reflexivity.
Defined.

(** ** Further lemmas on the tally *)

Lemma signal_fields_NoDup : NoDup signal_fields.
Proof. by apply (bool_decide_unpack _). Qed.

Lemma signal_fields_not_decision k :
  k ∈ signal_fields →
  k ≠ "final_strategy_decision" ∧ k ≠ "strategy_votes".
Proof.
  unfold signal_fields. rewrite !elem_of_cons, elem_of_nil.
  intros H. split; intros ->; intuition discriminate.
Qed.

Lemma votes_of_ext d1 d2 :
  (∀ k, k ∈ signal_fields → d1 !! k = d2 !! k) →
  votes_of d1 = votes_of d2.
Proof.
  intros H. unfold votes_of. apply Forall_fmap_ext, Forall_forall.
  intros k Hk. by rewrite (H k Hk).
Qed.

Lemma votes_of_enriched d : votes_of (enriched d) = votes_of d.
Proof.
  apply votes_of_ext. intros k [H1 H2]%signal_fields_not_decision.
  by apply enriched_other.
Qed.

Lemma enriched_idemp d : enriched (enriched d) = enriched d.
Proof.
  rewrite (enriched_union (enriched d)).
  unfold decision_result. rewrite votes_of_enriched.
  fold (decision_result d). rewrite enriched_union.
  by rewrite (assoc_L (∪)), (idemp_L (∪)).
Qed.

Lemma votes_of_insert_other d k v :
  k ∉ signal_fields → votes_of (<[k := v]> d) = votes_of d.
Proof.
  intros Hk. apply votes_of_ext. intros k' Hk'.
  apply lookup_insert_ne. by intros ->.
Qed.

Lemma filter_affirmative_insert d k s (ks : list string) :
  s ∈ affirmative_tokens → NoDup ks →
  length (filter (holds_affirmative (<[k := VStr s]> d)) ks)
  = ((if bool_decide (k ∈ ks) then 1 else 0)
     + length (filter (holds_affirmative (delete k d)) ks))%nat.
Proof.
  intros Hs. induction 1 as [|k' ks Hk' Hks IH]; [done|].
  rewrite !filter_cons.
  destruct (decide (k' = k)) as [->|Hne].
  - rewrite bool_decide_eq_true_2 by apply list_elem_of_here.
    rewrite bool_decide_eq_false_2 in IH by done.
    destruct (decide (holds_affirmative (<[k:=VStr s]> d) k)) as [_|Hn].
    + destruct (decide (holds_affirmative (delete k d) k)) as [Hd|_].
      * unfold holds_affirmative in Hd. by rewrite lookup_delete_eq in Hd.
      * simpl length. by rewrite IH.
    + destruct Hn. unfold holds_affirmative. by rewrite lookup_insert_eq.
  - assert (holds_affirmative (<[k:=VStr s]> d) k'
            ↔ holds_affirmative (delete k d) k') as Hiff.
    { unfold holds_affirmative.
      by rewrite lookup_insert_ne, lookup_delete_ne. }
    assert (bool_decide (k ∈ k' :: ks) = bool_decide (k ∈ ks)) as ->.
    { apply bool_decide_ext. rewrite elem_of_cons.
      split; [|by right]. intros [E|?]; [by destruct Hne | done]. }
    destruct (decide (holds_affirmative (<[k:=VStr s]> d) k')) as [H1|H1],
             (decide (holds_affirmative (delete k d) k')) as [H2|H2];
      try tauto; simpl length; lia.
Qed.

Lemma affirmative_fields_insert d k s :
  k ∈ signal_fields → s ∈ affirmative_tokens →
  affirmative_fields (<[k := VStr s]> d)
  = S (affirmative_fields (delete k d)).
Proof.
  intros Hk Hs. unfold affirmative_fields.
  rewrite (filter_affirmative_insert d k s _ Hs signal_fields_NoDup).
  by rewrite bool_decide_eq_true_2.
Qed.

Lemma holds_affirmative_present d k :
  holds_affirmative d k → is_Some (d !! k).
Proof. unfold holds_affirmative. by destruct (d !! k). Qed.

Lemma affirmative_fields_present d :
  (affirmative_fields d
   ≤ length (filter (λ k, is_Some (d !! k)) signal_fields))%nat.
Proof.
  unfold affirmative_fields.
  induction signal_fields as [|k ks IH]; [done|].
  rewrite !filter_cons.
  destruct (decide (holds_affirmative d k)) as [H|H].
  - apply holds_affirmative_present in H.
    rewrite decide_True by done. simpl length. lia.
  - case_decide; simpl length; lia.
Qed.

Lemma dom_decision_result d :
  dom (decision_result d)
  = ({[ "final_strategy_decision"; "strategy_votes" ]} : gset string).
Proof.
  unfold decision_result.
  rewrite !dom_insert_L, dom_empty_L, (right_id_L ∅ (∪)).
  apply (comm_L (∪)).
Qed.

Lemma result_output_loc_ne w d : result_loc w ≠ output_loc w d.
Proof.
  intros E.
  pose proof (fresh_lookup
    (<[result_loc w := ODict (decision_result d)]> (store w))) as H.
  fold (output_loc w d) in H. rewrite <- E, lookup_insert_eq in H. done.
Qed.

Lemma evaluate_strategy_list w l xs :
  store w !! l = Some (OList xs) →
  evaluate_strategy (VRef l) w = (Raises AttributeError, w).
Proof.
  intros H. unfold evaluate_strategy.
  rewrite bind_run. unfold py_get. rewrite bind_run.
  cbn [read_store]. by rewrite H.
Qed.

Lemma validate_then {B} (run_next : pyval → M B) check message w :
  check (store w) message = true →
  (validate_input_message check message ≫= run_next) w
  = run_next message
      (World (store w)
         (records w ++ [LogRecord DEBUG "🔍 Validating message schema..." []])).
Proof.
  intros H. apply bind_returns. by apply validate_accepts.
Qed.

(** ** Further properties of the two functions *)

(** X1 (not a mapping): a message that is no dict (an immediate value, or
    a reference to a list) makes [evaluate_strategy] raise
    [AttributeError] at its first statement: nothing is logged, nothing is
    allocated, the world is as it was. *)
Theorem evaluate_non_mapping_raises (w : world) (message : pyval) :
  match message with
  | VRef l => ∃ xs, store w !! l = Some (OList xs)
  | _ => True
  end →
  evaluate_strategy message w = (Raises AttributeError, w).
Proof.
  destruct message as [| | | | |l]; try done.
  intros [xs H]. by eapply evaluate_strategy_list.
Qed.

Lemma evaluate_non_mapping_raises_witness :
  (∃ xs, store w_untyped !! 1%nat = Some (OList xs))
  ∧ evaluate_strategy (VRef 1%nat) w_untyped = (Raises AttributeError, w_untyped).
Proof.
  assert (∃ xs, store w_untyped !! 1%nat = Some (OList xs)) as H
    by (eexists; reflexivity).
  split; [exact H|].
  exact (evaluate_non_mapping_raises w_untyped (VRef 1%nat) H).
Defined.

(** X2 (idempotence): calling [evaluate_strategy] on the dict it returned
    returns a dict of the same content: the decision keys of the input are
    overwritten and take no part in the tally. *)
Theorem evaluate_idempotent (w : world) (l : loc) (d : gmap string pyval) :
  store w !! l = Some (ODict d) →
  ∃ l' out w' w'',
    evaluate_strategy (VRef l) w = (Returns (VRef l'), w')
    ∧ store w' !! l' = Some (ODict out)
    ∧ evaluates w' (VRef l') out w''.
Proof.
  intros H.
  exists (output_loc w d), (enriched d), (evaluate_world w d),
    (evaluate_world (evaluate_world w d) (enriched d)).
  assert (store (evaluate_world w d) !! output_loc w d
          = Some (ODict (enriched d))) as Hout by apply lookup_insert_eq.
  split; [by apply evaluate_strategy_run|].
  split; [exact Hout|].
  pose proof (evaluates_run _ _ _ Hout) as E.
  by rewrite enriched_idemp in E.
Qed.

Lemma evaluate_idempotent_witness :
  store (world_of d_collision) !! 0%nat = Some (ODict d_collision)
  ∧ ∃ l' out w' w'',
      evaluate_strategy (VRef 0%nat) (world_of d_collision)
      = (Returns (VRef l'), w')
      ∧ store w' !! l' = Some (ODict out)
      ∧ evaluates w' (VRef l') out w''.
Proof.
  split; [reflexivity|].
  apply (evaluate_idempotent (world_of d_collision) 0%nat d_collision).
  reflexivity.
Defined.

(** X3 (other keys are ignored): setting a key that is none of the six
    signal fields, be it [symbol] or a decision key the message already
    carries, changes neither the vote count nor the decision. *)
Theorem decision_ignores_other_keys
    (w1 w2 : world) (l1 l2 : loc) (d : gmap string pyval)
    (k : string) (v : pyval) :
  k ∉ signal_fields →
  store w1 !! l1 = Some (ODict d) →
  store w2 !! l2 = Some (ODict (<[k := v]> d)) →
  ∃ out1 w1' out2 w2',
    evaluates w1 (VRef l1) out1 w1'
    ∧ evaluates w2 (VRef l2) out2 w2'
    ∧ out2 !! "strategy_votes" = out1 !! "strategy_votes"
    ∧ out2 !! "final_strategy_decision" = out1 !! "final_strategy_decision".
Proof.
  intros Hk H1 H2.
  exists (enriched d), (evaluate_world w1 d),
    (enriched (<[k := v]> d)), (evaluate_world w2 (<[k := v]> d)).
  split; [by apply evaluates_run|].
  split; [by apply evaluates_run|].
  rewrite !enriched_votes, !enriched_decision.
  by rewrite (votes_of_insert_other d k v Hk).
Qed.

Lemma decision_ignores_other_keys_witness :
  (("final_strategy_decision" ∉ signal_fields)
   ∧ store (world_of d_aapl) !! 0%nat = Some (ODict d_aapl)
   ∧ store (world_of (<["final_strategy_decision" := VStr "HOLD"]> d_aapl))
       !! 0%nat
     = Some (ODict (<["final_strategy_decision" := VStr "HOLD"]> d_aapl)))
  ∧ ∃ out1 w1' out2 w2',
      evaluates (world_of d_aapl) (VRef 0%nat) out1 w1'
      ∧ evaluates
          (world_of (<["final_strategy_decision" := VStr "HOLD"]> d_aapl))
          (VRef 0%nat) out2 w2'
      ∧ out2 !! "strategy_votes" = out1 !! "strategy_votes"
      ∧ out2 !! "final_strategy_decision"
        = out1 !! "final_strategy_decision".
Proof.
  assert ("final_strategy_decision" ∉ signal_fields) as Hk
    by (by apply (bool_decide_unpack _)).
  split; [split; [exact Hk | split; reflexivity]|].
  apply (decision_ignores_other_keys
           (world_of d_aapl)
           (world_of (<["final_strategy_decision" := VStr "HOLD"]> d_aapl))
           0%nat 0%nat d_aapl "final_strategy_decision" (VStr "HOLD") Hk);
    reflexivity.
Defined.

(** X4 (one field, one vote): a signal field that holds an affirmative
    token adds exactly one to the count the message has without that
    field; the six fields weigh the same. *)
Theorem affirmative_field_adds_one
    (w1 w2 : world) (l1 l2 : loc) (d : gmap string pyval)
    (k s : string) :
  k ∈ signal_fields →
  s ∈ affirmative_tokens →
  store w1 !! l1 = Some (ODict (delete k d)) →
  store w2 !! l2 = Some (ODict (<[k := VStr s]> d)) →
  ∃ out1 w1' out2 w2' n,
    evaluates w1 (VRef l1) out1 w1'
    ∧ evaluates w2 (VRef l2) out2 w2'
    ∧ out1 !! "strategy_votes" = Some (VInt n)
    ∧ out2 !! "strategy_votes" = Some (VInt (n + 1)).
Proof.
  intros Hk Hs H1 H2.
  exists (enriched (delete k d)), (evaluate_world w1 (delete k d)),
    (enriched (<[k := VStr s]> d)), (evaluate_world w2 (<[k := VStr s]> d)),
    (Z.of_nat (affirmative_fields (delete k d))).
  split; [by apply evaluates_run|].
  split; [by apply evaluates_run|].
  rewrite !enriched_votes, !votes_of_count.
  split; [done|].
  rewrite (affirmative_fields_insert d k s Hk Hs). do 2 f_equal. lia.
Qed.

Lemma affirmative_field_adds_one_witness :
  (("factor_signal" ∈ signal_fields)
   ∧ ("REVERT_UP" ∈ affirmative_tokens)
   ∧ store (world_of (delete "factor_signal" d_nosymbol)) !! 0%nat
     = Some (ODict (delete "factor_signal" d_nosymbol))
   ∧ store (world_of (<["factor_signal" := VStr "REVERT_UP"]> d_nosymbol))
       !! 0%nat
     = Some (ODict (<["factor_signal" := VStr "REVERT_UP"]> d_nosymbol)))
  ∧ ∃ out1 w1' out2 w2' n,
      evaluates (world_of (delete "factor_signal" d_nosymbol))
        (VRef 0%nat) out1 w1'
      ∧ evaluates
          (world_of (<["factor_signal" := VStr "REVERT_UP"]> d_nosymbol))
          (VRef 0%nat) out2 w2'
      ∧ out1 !! "strategy_votes" = Some (VInt n)
      ∧ out2 !! "strategy_votes" = Some (VInt (n + 1)).
Proof.
  assert ("factor_signal" ∈ signal_fields) as Hk
    by (by apply (bool_decide_unpack _)).
  assert ("REVERT_UP" ∈ affirmative_tokens) as Hs
    by (by apply (bool_decide_unpack _)).
  split; [split; [exact Hk | split; [exact Hs | split; reflexivity]]|].
  apply (affirmative_field_adds_one
           (world_of (delete "factor_signal" d_nosymbol))
           (world_of (<["factor_signal" := VStr "REVERT_UP"]> d_nosymbol))
           0%nat 0%nat d_nosymbol "factor_signal" "REVERT_UP" Hk Hs);
    reflexivity.
Defined.

(** X5 (missing fields): the count is at most the number of signal fields
    the message has, so a message with fewer than three of them, the
    empty message among them, is decided "HOLD". *)
Theorem few_signal_fields_hold (w : world) (l : loc) (d : gmap string pyval) :
  store w !! l = Some (ODict d) →
  ∃ out w' n,
    evaluates w (VRef l) out w'
    ∧ out !! "strategy_votes" = Some (VInt n)
    ∧ n ≤ Z.of_nat (length (filter (λ k, is_Some (d !! k)) signal_fields))
    ∧ ((length (filter (λ k, is_Some (d !! k)) signal_fields) < 3)%nat →
       out !! "final_strategy_decision" = Some (VStr "HOLD")).
Proof.
  intros H.
  exists (enriched d), (evaluate_world w d),
    (Z.of_nat (affirmative_fields d)).
  pose proof (affirmative_fields_present d) as Hle.
  split; [by apply evaluates_run|].
  split; [by rewrite enriched_votes, votes_of_count|].
  split; [lia|].
  intros Hlt. rewrite enriched_decision, votes_of_count. do 2 f_equal.
  apply decide_votes_hold. lia.
Qed.

Lemma few_signal_fields_hold_witness :
  store (world_of ∅) !! 0%nat = Some (ODict ∅)
  ∧ ∃ out w' n,
      evaluates (world_of ∅) (VRef 0%nat) out w'
      ∧ out !! "strategy_votes" = Some (VInt n)
      ∧ n ≤ Z.of_nat
              (length (filter (λ k, is_Some ((∅ : gmap string pyval) !! k))
                         signal_fields))
      ∧ ((length (filter (λ k, is_Some ((∅ : gmap string pyval) !! k))
                    signal_fields) < 3)%nat →
         out !! "final_strategy_decision" = Some (VStr "HOLD")).
Proof.
  split; [reflexivity|].
  apply (few_signal_fields_hold (world_of ∅) 0%nat ∅). reflexivity.
Defined.

(** X6 (keys of the result): the returned dict has the keys of the
    message and the two decision keys, and no other. *)
Theorem output_keys (w : world) (l : loc) (d : gmap string pyval) :
  store w !! l = Some (ODict d) →
  ∃ out w',
    evaluates w (VRef l) out w'
    ∧ dom out = dom d ∪ {[ "final_strategy_decision"; "strategy_votes" ]}.
Proof.
  intros H. exists (enriched d), (evaluate_world w d).
  split; [by apply evaluates_run|].
  rewrite enriched_union, dom_union_L, dom_decision_result.
  apply (comm_L (∪)).
Qed.

Lemma output_keys_witness :
  store (world_of d_msft) !! 0%nat = Some (ODict d_msft)
  ∧ ∃ out w',
      evaluates (world_of d_msft) (VRef 0%nat) out w'
      ∧ dom out
        = dom d_msft ∪ {[ "final_strategy_decision"; "strategy_votes" ]}.
Proof.
  split; [reflexivity|].
  apply (output_keys (world_of d_msft) 0%nat d_msft). reflexivity.
Defined.

(** X7 (the two steps in sequence): when [validate_input_message] is
    followed by [evaluate_strategy] on a message that is a dict, a
    rejected message stops the run at the validator: [ValueError] is
    raised, the store is as it was, and the log got the trace record and
    an error record holding the message.  An accepted message is
    evaluated as by [evaluate_strategy] alone, after the trace record. *)
Theorem validate_then_evaluate
    (check : gmap loc pyobj → pyval → bool)
    (w : world) (l : loc) (d : gmap string pyval) :
  store w !! l = Some (ODict d) →
  if check (store w) (VRef l)
  then
    ∃ out w',
      (validate_input_message check (VRef l) ≫= evaluate_strategy) w
      = evaluate_strategy (VRef l)
          (World (store w)
             (records w ++
                [LogRecord DEBUG "🔍 Validating message schema..." []]))
      ∧ evaluates
          (World (store w)
             (records w ++
                [LogRecord DEBUG "🔍 Validating message schema..." []]))
          (VRef l) out w'
      ∧ out !! "strategy_votes"
        = Some (VInt (Z.of_nat (affirmative_fields d)))
  else
    (validate_input_message check (VRef l) ≫= evaluate_strategy) w
    = (Raises (ValueError "Invalid message format"),
       World (store w)
         (records w ++
            [LogRecord DEBUG "🔍 Validating message schema..." [];
             LogRecord ERROR "❌ Invalid message schema: %s" [VRef l]])).
Proof.
  intros H. destruct (check (store w) (VRef l)) eqn:E.
  - eexists (enriched d), _.
    split; [by apply validate_then|].
    split; [by apply evaluates_run|].
    by rewrite enriched_votes, votes_of_count.
  - rewrite bind_run. by rewrite (validate_rejects _ _ _ E).
Qed.

Lemma validate_then_evaluate_witness :
  store (world_of d_nosymbol) !! 0%nat = Some (ODict d_nosymbol)
  ∧ (validate_input_message has_symbol (VRef 0%nat) ≫= evaluate_strategy)
      (world_of d_nosymbol)
    = (Raises (ValueError "Invalid message format"),
       World (store (world_of d_nosymbol))
         (records (world_of d_nosymbol) ++
            [LogRecord DEBUG "🔍 Validating message schema..." [];
             LogRecord ERROR "❌ Invalid message schema: %s" [VRef 0%nat]])).
Proof.
  split; [reflexivity|].
  apply (validate_then_evaluate has_symbol (world_of d_nosymbol) 0%nat
           d_nosymbol).
  reflexivity.
Defined.

(** X8 (what is logged): [evaluate_strategy] appends exactly two records,
    an INFO record and then a DEBUG record.  Both carry the value the
    message has under [symbol], of whatever type; the DEBUG record also
    carries a reference to the decision result, a dict of the two decision
    keys only, which is another object than the dict returned. *)
Theorem evaluate_log_records
    (w : world) (l : loc) (d : gmap string pyval) (sym : pyval) :
  store w !! l = Some (ODict d) →
  d !! "symbol" = Some sym →
  ∃ l' lr res w',
    evaluate_strategy (VRef l) w = (Returns (VRef l'), w')
    ∧ records w'
      = (records w ++
         [LogRecord INFO "🧮 Evaluating strategy for %s" [sym];
          LogRecord DEBUG "✅ Final strategy decision for %s: %s"
            [sym; VRef lr]])%list
    ∧ lr ≠ l'
    ∧ store w' !! lr = Some (ODict res)
    ∧ dom res = {[ "final_strategy_decision"; "strategy_votes" ]}.
Proof.
  intros H Hs.
  exists (output_loc w d), (result_loc w), (decision_result d),
    (evaluate_world w d).
  split; [by apply evaluate_strategy_run|].
  split.
  { unfold evaluate_world, logged_symbol. cbn [records]. by rewrite Hs. }
  split; [apply result_output_loc_ne|].
  split; [apply evaluate_world_result|].
  apply dom_decision_result.
Qed.

Lemma evaluate_log_records_witness :
  (store w_untyped !! 0%nat = Some (ODict d_untyped)
   ∧ d_untyped !! "symbol" = Some (VInt 7))
  ∧ ∃ l' lr res w',
      evaluate_strategy (VRef 0%nat) w_untyped = (Returns (VRef l'), w')
      ∧ records w'
        = (records w_untyped ++
           [LogRecord INFO "🧮 Evaluating strategy for %s" [VInt 7];
            LogRecord DEBUG "✅ Final strategy decision for %s: %s"
              [VInt 7; VRef lr]])%list
      ∧ lr ≠ l'
      ∧ store w' !! lr = Some (ODict res)
      ∧ dom res = {[ "final_strategy_decision"; "strategy_votes" ]}.
Proof.
  split; [split; reflexivity|].
  apply (evaluate_log_records w_untyped 0%nat d_untyped (VInt 7));
    reflexivity.
Defined.

(** X9 (the validator checks no type): [validate_input_message] returns
    whatever the schema check accepts.  When the check accepts a message
    that is no dict, the evaluator run after it raises [AttributeError];
    the log got the trace record of the validator and nothing else. *)
Theorem accepted_non_mapping_raises
    (check : gmap loc pyobj → pyval → bool) (w : world) (message : pyval) :
  check (store w) message = true →
  match message with
  | VRef l => ∃ xs, store w !! l = Some (OList xs)
  | _ => True
  end →
  (validate_input_message check message ≫= evaluate_strategy) w
  = (Raises AttributeError,
     World (store w)
       (records w ++ [LogRecord DEBUG "🔍 Validating message schema..." []])).
Proof.
  intros E H. rewrite (validate_then _ _ _ _ E).
  destruct message as [| | | | |l]; try done.
  destruct H as [xs H]. by eapply evaluate_strategy_list.
Qed.

Lemma accepted_non_mapping_raises_witness :
  (true = true ∧ ∃ xs, store w_untyped !! 1%nat = Some (OList xs))
  ∧ (validate_input_message (λ _ _, true) (VRef 1%nat) ≫= evaluate_strategy)
      w_untyped
    = (Raises AttributeError,
       World (store w_untyped)
         (records w_untyped ++
            [LogRecord DEBUG "🔍 Validating message schema..." []])).
Proof.
  assert (∃ xs, store w_untyped !! 1%nat = Some (OList xs)) as H
    by (eexists; reflexivity).
  split; [split; [reflexivity | exact H]|].
  exact (accepted_non_mapping_raises (λ _ _, true) w_untyped (VRef 1%nat)
           eq_refl H).
Defined.

(** ** Messages that hold foreign objects: the run *)

Lemma wide_bind_returns {A B} (c : Wide.M A) (f : A → Wide.M B)
    (w w' : Wide.world) (a : A) :
  c w = (Returns a, w') → (c ≫= f) w = f a w'.
Proof.
  intros H. unfold mbind, Wide.M_bind. by rewrite H.
Qed.

Lemma wide_bind_raises {A B} (c : Wide.M A) (f : A → Wide.M B)
    (w w' : Wide.world) (e : exn) :
  c w = (Raises e, w') → (c ≫= f) w = (Raises e, w').
Proof.
  intros H. unfold mbind, Wide.M_bind. by rewrite H.
Qed.

Lemma wide_py_get_dict w l d key dflt :
  Wide.store w !! l = Some (Wide.Dict d) →
  Wide.py_get (Wide.Plain (VRef l)) key dflt w
  = (Returns (default dflt (d !! key)), w).
Proof.
  intros H. unfold Wide.py_get.
  erewrite wide_bind_returns; [|reflexivity]. by rewrite H.
Qed.

Lemma wide_py_mapping_dict w l d :
  Wide.store w !! l = Some (Wide.Dict d) →
  Wide.py_mapping (Wide.Plain (VRef l)) w = (Returns d, w).
Proof.
  intros H. unfold Wide.py_mapping.
  erewrite wide_bind_returns; [|reflexivity]. by rewrite H.
Qed.

Lemma wide_dict_update_union (acc d : gmap string Wide.value) :
  Wide.dict_update acc d = d ∪ acc.
Proof.
  unfold Wide.dict_update.
  apply (map_fold_weak_ind (λ r m, r = m ∪ acc)).
  - by rewrite (left_id_L ∅ (∪)).
  - intros i x m r _ ->. by rewrite insert_union_l.
Qed.

Lemma wide_fresh_lookup (σ : gmap loc Wide.object) :
  σ !! fresh (dom σ) = None.
Proof. apply not_elem_of_dom, is_fresh. Qed.

(** *** The membership test *)

Lemma wide_py_in_plain p t :
  Wide.py_in (Wide.Plain p) t = Returns (py_in p t).
Proof.
  induction t as [|s t IH]; [done|].
  cbn [Wide.py_in Wide.py_eq_str]. unfold py_in. cbn [existsb].
  destruct (py_eq_str p s); [done|]. exact IH.
Qed.

Lemma wide_py_in_all_false eq (t : list string) :
  (∀ s, s ∈ t → eq s = Returns false) →
  Wide.py_in (Wide.Instance eq) t = Returns false.
Proof.
  induction t as [|s t IH]; intros H; [done|].
  cbn [Wide.py_in Wide.py_eq_str].
  rewrite (H s) by apply list_elem_of_here.
  apply IH. intros s' Hs'. apply H. by apply list_elem_of_further.
Qed.

Lemma elem_of_affirmative s : s ∈ affirmative ↔ s ∈ affirmative_tokens.
Proof.
  rewrite elem_of_affirmative_tokens. unfold affirmative.
  rewrite !elem_of_cons, elem_of_nil. tauto.
Qed.

Lemma py_in_str_affirmative s :
  py_in (VStr s) affirmative
  = if decide (s ∈ affirmative_tokens) then true else false.
Proof.
  case_decide as Hs.
  - apply py_in_affirmative. eauto.
  - destruct (py_in (VStr s) affirmative) eqn:E; [|done].
    apply py_in_affirmative in E as (s' & [= <-] & Hs'). done.
Qed.

Lemma py_in_not_str p :
  (∀ s, p ≠ VStr s) → py_in p affirmative = false.
Proof.
  intros H. destruct (py_in p affirmative) eqn:E; [|done].
  apply py_in_affirmative in E as (s & -> & _). by destruct (H s).
Qed.

Lemma wide_py_in_data d k :
  Wide.compares_as_data (default (Wide.Plain VNone) (d !! k)) →
  Wide.py_in (default (Wide.Plain VNone) (d !! k)) affirmative
  = Returns (if decide (Wide.holds_affirmative d k) then true else false).
Proof.
  intros H.
  destruct (decide (Wide.holds_affirmative d k)) as [Hk|Hk];
    unfold Wide.holds_affirmative in Hk;
    destruct (d !! k) as [[p|eq]|]; cbn [default from_option id] in *;
    try done.
  - destruct p; try done.
    by rewrite wide_py_in_plain, py_in_str_affirmative, decide_True.
  - rewrite wide_py_in_plain. f_equal. destruct p.
    1-4, 6: by apply py_in_not_str.
    by rewrite py_in_str_affirmative, decide_False.
  - apply wide_py_in_all_false. intros s Hs. by apply H, elem_of_affirmative.
Qed.

Lemma wide_ones_data d (ks : list string) :
  (∀ k, k ∈ ks →
        Wide.compares_as_data (default (Wide.Plain VNone) (d !! k))) →
  Wide.ones ((λ k, default (Wide.Plain VNone) (d !! k)) <$> ks)
  = Returns ((λ _, 1) <$> filter (Wide.holds_affirmative d) ks).
Proof.
  induction ks as [|k ks IH]; intros H; [done|].
  rewrite fmap_cons. cbn [Wide.ones].
  rewrite wide_py_in_data by (apply H, list_elem_of_here).
  rewrite IH by (intros k' Hk'; by apply H, list_elem_of_further).
  rewrite filter_cons.
  by destruct (decide (Wide.holds_affirmative d k)).
Qed.

Lemma py_sum_ones {A} (xs : list A) :
  py_sum ((λ _, 1) <$> xs) = Z.of_nat (length xs).
Proof.
  induction xs as [|x xs IH]; [done|].
  rewrite fmap_cons, py_sum_cons, IH. simpl length. lia.
Qed.

Lemma wide_count_votes_data w d :
  (∀ k, k ∈ signal_fields →
        Wide.compares_as_data (default (Wide.Plain VNone) (d !! k))) →
  Wide.count_votes
    ((λ k, default (Wide.Plain VNone) (d !! k)) <$> signal_fields) w
  = (Returns (Z.of_nat (Wide.affirmative_fields d)), w).
Proof.
  intros H. unfold Wide.count_votes.
  rewrite (wide_ones_data d signal_fields H).
  by rewrite py_sum_ones.
Qed.


(** *** The run of the wider [evaluate_strategy] *)

Lemma wide_evaluate_run w l d :
  Wide.store w !! l = Some (Wide.Dict d) →
  (∀ k, k ∈ signal_fields →
        Wide.compares_as_data (default (Wide.Plain VNone) (d !! k))) →
  Wide.evaluate_strategy (Wide.Plain (VRef l)) w
  = (Returns (Wide.Plain
                (VRef (Wide.output_loc w
                         (Z.of_nat (Wide.affirmative_fields d))))),
     Wide.evaluate_world w d (Z.of_nat (Wide.affirmative_fields d))).
Proof.
  intros H Hd.
  unfold Wide.evaluate_strategy, Wide.logger_info, Wide.logger_debug.
  rewrite (wide_bind_returns _ _ _ _ _ (wide_py_get_dict _ _ _ _ _ H)).
  erewrite wide_bind_returns; [|reflexivity].
  do 6 (erewrite wide_bind_returns; [|by apply wide_py_get_dict]).
  erewrite wide_bind_returns; [|exact (wide_count_votes_data _ d Hd)].
  unfold Wide.py_dict_literal.
  erewrite wide_bind_returns; [|reflexivity].
  erewrite wide_bind_returns; [|reflexivity].
  unfold Wide.py_dict_display.
  cbn [Wide.dict_unpack Wide.store Wide.records foldl fst snd].
  fold (Wide.decision_result (Z.of_nat (Wide.affirmative_fields d))).
  fold (Wide.result_loc w).
  set (n := Z.of_nat (Wide.affirmative_fields d)).
  assert (Hl : <[Wide.result_loc w := Wide.Dict (Wide.decision_result n)]>
                 (Wide.store w) !! l = Some (Wide.Dict d)).
  { rewrite lookup_insert_ne; [exact H|]. intros E.
    unfold Wide.result_loc in E.
    by rewrite <- E, wide_fresh_lookup in H. }
  erewrite wide_bind_returns; cycle 1.
  { erewrite wide_bind_returns; [|by apply wide_py_mapping_dict].
    erewrite wide_bind_returns; [reflexivity|].
    apply wide_py_mapping_dict. cbn [Wide.store]. apply lookup_insert_eq. }
  unfold Wide.alloc. cbn [Wide.store Wide.records].
  rewrite !wide_dict_update_union, (right_id_L ∅ (∪)), <- app_assoc.
  reflexivity.
Qed.

Lemma wide_evaluate_raises w l d e :
  Wide.store w !! l = Some (Wide.Dict d) →
  Wide.ones ((λ k, default (Wide.Plain VNone) (d !! k)) <$> signal_fields)
  = Raises e →
  Wide.evaluate_strategy (Wide.Plain (VRef l)) w
  = (Raises e,
     Wide.World (Wide.store w)
       (Wide.records w ++
          [Wide.LogRecord INFO "🧮 Evaluating strategy for %s"
             [default (Wide.Plain (VStr "UNKNOWN")) (d !! "symbol")]])).
Proof.
  intros H He.
  unfold Wide.evaluate_strategy, Wide.logger_info.
  rewrite (wide_bind_returns _ _ _ _ _ (wide_py_get_dict _ _ _ _ _ H)).
  erewrite wide_bind_returns; [|reflexivity].
  do 6 (erewrite wide_bind_returns; [|by apply wide_py_get_dict]).
  apply wide_bind_raises. unfold Wide.count_votes.
  cbn [fmap list_fmap signal_fields] in He. by rewrite He.
Qed.




(** *** On plain data the two models agree *)

Lemma lift_lookup_dict w l d :
  store w !! l = Some (ODict d) →
  Wide.store (lift_world w) !! l = Some (Wide.Dict (Wide.Plain <$> d)).
Proof. intros H. cbn [lift_world Wide.store]. by rewrite lookup_fmap, H. Qed.

Lemma lift_compares_as_data (d : gmap string pyval) k :
  Wide.compares_as_data
    (default (Wide.Plain VNone) ((Wide.Plain <$> d) !! k)).
Proof. rewrite lookup_fmap. by destruct (d !! k). Qed.

Lemma lift_affirmative_fields (d : gmap string pyval) :
  Wide.affirmative_fields (Wide.Plain <$> d) = affirmative_fields d.
Proof.
  unfold Wide.affirmative_fields, affirmative_fields. f_equal.
  apply list_filter_iff. intros k.
  unfold Wide.holds_affirmative, holds_affirmative.
  rewrite lookup_fmap. by destruct (d !! k).
Qed.

Lemma lift_decision_result (d : gmap string pyval) :
  Wide.Plain <$> decision_result d
  = Wide.decision_result (Z.of_nat (affirmative_fields d)).
Proof.
  unfold decision_result, Wide.decision_result.
  by rewrite !fmap_insert, fmap_empty, votes_of_count.
Qed.

Lemma lift_result_loc w : Wide.result_loc (lift_world w) = result_loc w.
Proof.
  unfold Wide.result_loc, result_loc. cbn [lift_world Wide.store].
  by rewrite dom_fmap_L.
Qed.

Lemma lift_output_loc w d :
  Wide.output_loc (lift_world w) (Z.of_nat (affirmative_fields d))
  = output_loc w d.
Proof.
  unfold Wide.output_loc, output_loc. rewrite lift_result_loc.
  cbn [lift_world Wide.store].
  by rewrite !dom_insert_L, dom_fmap_L.
Qed.

Lemma lift_logged_symbol (d : gmap string pyval) :
  default (Wide.Plain (VStr "UNKNOWN")) ((Wide.Plain <$> d) !! "symbol")
  = Wide.Plain (logged_symbol d).
Proof. unfold logged_symbol. rewrite lookup_fmap. by destruct (d !! "symbol"). Qed.

Lemma lift_evaluate_world w d :
  Wide.evaluate_world (lift_world w) (Wide.Plain <$> d)
    (Z.of_nat (affirmative_fields d))
  = lift_world (evaluate_world w d).
Proof.
  unfold Wide.evaluate_world, evaluate_world, lift_world.
  cbn [store records Wide.store Wide.records].
  fold (lift_world w).
  rewrite lift_output_loc, lift_result_loc, lift_logged_symbol.
  rewrite !fmap_insert, fmap_app. cbn [lift_object].
  by rewrite enriched_union, map_fmap_union, lift_decision_result.
Qed.

(** The wider model run on a world of plain data does what the first
    model does: the same outcome and the same world. *)
Lemma wide_agrees_on_plain v w :
  Wide.evaluate_strategy (Wide.Plain v) (lift_world w)
  = (lift_outcome (evaluate_strategy v w).1,
     lift_world (evaluate_strategy v w).2).
Proof.
  destruct v as [| | | | |l]; try reflexivity.
  destruct (store w !! l) as [[d|xs]|] eqn:E.
  - rewrite (evaluate_strategy_run _ _ _ E). cbn [fst snd lift_outcome].
    rewrite (wide_evaluate_run _ _ _ (lift_lookup_dict _ _ _ E))
      by (intros k _; apply lift_compares_as_data).
    by rewrite lift_affirmative_fields, lift_output_loc, lift_evaluate_world.
  - rewrite (evaluate_strategy_list _ _ _ E). cbn [fst snd lift_outcome].
    unfold Wide.evaluate_strategy, Wide.py_get.
    apply wide_bind_raises.
    erewrite wide_bind_returns; [|reflexivity].
    cbn [lift_world Wide.store]. by rewrite lookup_fmap, E.
  - assert (evaluate_strategy (VRef l) w = (Raises SystemError, w)) as ->.
    { unfold evaluate_strategy. rewrite bind_run. unfold py_get.
      rewrite bind_run. cbn [read_store]. by rewrite E. }
    cbn [fst snd lift_outcome].
    unfold Wide.evaluate_strategy, Wide.py_get.
    apply wide_bind_raises.
    erewrite wide_bind_returns; [|reflexivity].
    cbn [lift_world Wide.store]. by rewrite lookup_fmap, E.
Qed.

(** *** Property C9 *)



